(** * The validator's enrollment-certificate store

    A shallow embedding of [openchain/crypto/validator/validator_db.go]:
    the fetch-through certificate cache ([GetEnrollmentCert]), its lookup
    ([selectEnrollmentCert]) and the lifecycle of the backing SQLite store
    ([initDB], [createDB], [createDBIfDBPathEmpty], [openDB], [CloseDB],
    [deleteDB]).

    The Go code is stateful: it talks to [database/sql], to the file system
    and to two package-level variables.  It is embedded as a state monad
    over an explicit [World]; every call that leaves the package (the SQL
    engine, [os], the certificate fetcher, the logger) is a primitive of
    that monad. *)

From Stdlib Require Import Bool List String Ascii NArith Lia.
From stdpp Require Import base option gmap strings list.

Local Open Scope string_scope.

(** ** Go values *)

(** A Go [[]byte]: [None] is the nil slice, [Some l] a non-nil slice with
    contents [l].  The code tests [cert == nil], so the two are kept apart. *)
Abbreviation GoBytes := (option (list Byte.byte)) (only parsing).

(** Go [error] values met by the code.  [None : option error] is the nil
    error. *)
Inductive error : Type :=
| ErrNoRows                 (* sql.ErrNoRows *)
| ErrTxDone                 (* sql.ErrTxDone *)
| ErrDBClosed               (* "sql: database is closed" *)
| ErrNotExist               (* os.Stat on a missing file *)
| ErrSqlite (msg : string)  (* an error raised by the sqlite3 engine *)
| ErrIO (msg : string)      (* a failure injected by the environment *)
| ErrNew (msg : string).    (* errors.New / fmt.Errorf *)

(** A non-nil [*sql.DB] is a handle; [DB] is the struct of the source, its
    field a pointer that may be nil. *)
Abbreviation Handle := nat (only parsing).

Record DB : Type := mkDB { sqlDB : option Handle }.

(** ** The store on disk *)

(** The table [Certificates (id VARCHAR, cert BLOB, PRIMARY KEY (id))]:
    a finite map from the key to the blob.  A nil [[]byte] is bound as SQL
    NULL and a NULL column is scanned back as nil, so a blob is a
    [GoBytes]. *)
Inductive File : Type :=
| OtherFile                                              (* not a database *)
| DbFile (Certificates : option (gmap string GoBytes)).  (* [None]: no table yet *)

(** ** What the environment may do *)

(** Each call into the SQL engine or into [os] that can fail consumes one
    directive: the call goes through, it fails, or another client of the
    same directory acts first and then the call goes through. *)
Inductive Directive : Type :=
| Normal
| Fail (msg : string)
| Env (f : option (gmap string File) -> option (gmap string File)).

Inductive Level : Type := Debug | Info | Error | Fatal.

Inductive Stmt : Type :=
| CreateTable                                (* CREATE TABLE IF NOT EXISTS Certificates ... *)
| Insert (id : string) (cert : GoBytes).     (* INSERT INTO Certificates (id, cert) VALUES (?, ?) *)

(** Calls that leave the package, each with what it returned, as recorded
    in [trace] (latest first). *)
Inductive Event : Type :=
| EvFetch (id : GoBytes) (r : GoBytes * option error)
| EvQueryRow (h : Handle) (id : string) (r : GoBytes * option error)
| EvBegin (h : Handle) (err : option error)
| EvExec (s : Stmt) (err : option error)
| EvCommit (err : option error)
| EvRollback (err : option error)
| EvOpen (r : option Handle * option error)
| EvPing (h : Handle) (err : option error)
| EvClose (h : Handle)
| EvMkdirAll (err : option error)
| EvRemoveAll (err : option error).

(** ** The world *)

Record World : Type := mkWorld {
  fs : option (gmap string File);        (* the directory getDBPath(); [None]: missing *)
  handles : gset Handle;                 (* the open *sql.DB handles *)
  next_handle : Handle;
  txn : option (list (string * GoBytes)); (* rows staged by the open transaction *)
  isOpen : bool;                         (* var isOpen bool *)
  db : option DB;                        (* var db *DB *)
  oracle : list Directive;
  trace : list Event;
  logs : list (Level * string)
}.

Definition set_fs (v : option (gmap string File)) (w : World) : World :=
  mkWorld v (handles w) (next_handle w) (txn w) (isOpen w) (db w) (oracle w) (trace w) (logs w).
Definition set_handles (v : gset Handle) (w : World) : World :=
  mkWorld (fs w) v (next_handle w) (txn w) (isOpen w) (db w) (oracle w) (trace w) (logs w).
Definition set_next_handle (v : Handle) (w : World) : World :=
  mkWorld (fs w) (handles w) v (txn w) (isOpen w) (db w) (oracle w) (trace w) (logs w).
Definition set_txn (v : option (list (string * GoBytes))) (w : World) : World :=
  mkWorld (fs w) (handles w) (next_handle w) v (isOpen w) (db w) (oracle w) (trace w) (logs w).
Definition set_isOpen (v : bool) (w : World) : World :=
  mkWorld (fs w) (handles w) (next_handle w) (txn w) v (db w) (oracle w) (trace w) (logs w).
Definition set_db (v : option DB) (w : World) : World :=
  mkWorld (fs w) (handles w) (next_handle w) (txn w) (isOpen w) v (oracle w) (trace w) (logs w).
Definition set_oracle (v : list Directive) (w : World) : World :=
  mkWorld (fs w) (handles w) (next_handle w) (txn w) (isOpen w) (db w) v (trace w) (logs w).
Definition set_trace (v : list Event) (w : World) : World :=
  mkWorld (fs w) (handles w) (next_handle w) (txn w) (isOpen w) (db w) (oracle w) v (logs w).
Definition set_logs (v : list (Level * string)) (w : World) : World :=
  mkWorld (fs w) (handles w) (next_handle w) (txn w) (isOpen w) (db w) (oracle w) (trace w) v.

(** ** The monad *)

(** A call returns, or the process exits ([log.Fatal]), or it panics (a nil
    pointer is dereferenced). *)
Inductive Outcome (A : Type) : Type :=
| Returned (a : A)
| Exited
| Panicked.
Arguments Returned {A} a.
Arguments Exited {A}.
Arguments Panicked {A}.

Definition M (A : Type) : Type := World -> Outcome A * World.

Definition ret {A} (a : A) : M A := fun w => (Returned a, w).

Definition bind {A B} (m : M A) (k : A -> M B) : M B :=
  fun w =>
    match m w with
    | (Returned a, w') => k a w'
    | (Exited, w') => (Exited, w')
    | (Panicked, w') => (Panicked, w')
    end.

Definition exit {A} : M A := fun w => (Exited, w).
Definition panic {A} : M A := fun w => (Panicked, w).

Declare Scope go_scope.
Delimit Scope go_scope with go.
Notation "x <- m ;; k" := (bind m (fun x => k))
  (at level 100, m at next level, right associativity) : go_scope.
Notation "'let*' p := m 'in' k" := (bind m (fun x => let 'p := x in k))
  (at level 100, p pattern, m at next level, right associativity) : go_scope.
Notation "m ;; k" := (bind m (fun _ => k))
  (at level 100, right associativity) : go_scope.
Local Open Scope go_scope.

Definition modify (f : World -> World) : M unit := fun w => (Returned tt, f w).
Definition get {A} (f : World -> A) : M A := fun w => (Returned (f w), w).

Definition emit (e : Event) : M unit := modify (fun w => set_trace (e :: trace w) w).

(** [traced ev m] runs the call [m] and records it with its result. *)
Definition traced {A} (ev : A -> Event) (m : M A) : M A :=
  a <- m ;;
  emit (ev a) ;;
  ret a.

(** [defer]: the deferred call runs when the function returns or panics,
    not when the process exits. *)
Definition defer {A B} (cleanup : M B) (body : M A) : M A :=
  fun w =>
    match body w with
    | (Returned a, w') =>
        match cleanup w' with
        | (Returned _, w'') => (Returned a, w'')
        | (Exited, w'') => (Exited, w'')
        | (Panicked, w'') => (Panicked, w'')
        end
    | (Exited, w') => (Exited, w')
    | (Panicked, w') =>
        match cleanup w' with
        | (Exited, w'') => (Exited, w'')
        | (_, w'') => (Panicked, w'')
        end
    end.

(** ** The logger *)

(** A log call appends the level and the format string; the arguments are
    not kept.  [log.Fatal] ends the process. *)
Definition log (l : Level) (fmt : string) : M unit :=
  modify (fun w => set_logs ((l, fmt) :: logs w) w).

Definition log_Fatal : M unit := log Fatal "%s" ;; exit.

(** ** The environment's turn *)

(** [consult] takes the next directive.  An exhausted oracle means that
    nothing goes wrong any more. *)
Definition consult : M (option error) :=
  fun w =>
    let w' := set_oracle (tl (oracle w)) w in
    match hd Normal (oracle w) with
    | Normal => (Returned None, w')
    | Fail msg => (Returned (Some (ErrIO msg)), w')
    | Env f => (Returned None, set_fs (f (fs w)) w')
    end.

(** A nil pointer panics when it is dereferenced. *)
Definition deref {A} (p : option A) : M A :=
  match p with
  | Some a => ret a
  | None => panic
  end.

(** ** database/sql over sqlite3 *)

(** [getDBName] of the source. *)
Definition getDBName : string := "client.db".

(** A statement on handle [h] reaches the file [getDBName] of the
    directory: the handle must be open and the directory must exist; a
    missing file is created empty by the engine. *)
Definition connect (h : Handle) : M (option error) :=
  fun w =>
    if bool_decide (h ∈ handles w) then
      match fs w with
      | None => (Returned (Some (ErrSqlite "unable to open database file")), w)
      | Some files =>
          match files !! getDBName with
          | None => (Returned None, set_fs (Some (<[getDBName := DbFile None]> files)) w)
          | Some _ => (Returned None, w)
          end
      end
    else (Returned (Some ErrDBClosed), w).

(** The committed table, as a statement finds it. *)
Definition table_of (d : option (gmap string File)) : gmap string GoBytes + error :=
  match d with
  | None => inr (ErrSqlite "unable to open database file")
  | Some files =>
      match files !! getDBName with
      | Some (DbFile (Some t)) => inl t
      | Some (DbFile None) => inr (ErrSqlite "no such table: Certificates")
      | Some OtherFile => inr (ErrSqlite "file is not a database")
      | None => inr (ErrSqlite "no such table: Certificates")
      end
  end.

Definition write_table (t : gmap string GoBytes) (d : option (gmap string File))
  : option (gmap string File) :=
  match d with
  | Some files => Some (<[getDBName := DbFile (Some t)]> files)
  | None => None
  end.

(** The primary key: a staged row lands only on a free key. *)
Fixpoint apply_rows (rows : list (string * GoBytes)) (t : gmap string GoBytes)
  : option (gmap string GoBytes) :=
  match rows with
  | [] => Some t
  | (k, v) :: rows' =>
      match t !! k with
      | Some _ => None
      | None => apply_rows rows' (<[k := v]> t)
      end
  end.

(** Whether a row with key [id] is among the staged rows. *)
Definition has_key (id : string) (rows : list (string * GoBytes)) : bool :=
  existsb (fun r => String.eqb (fst r) id) rows.

Definition unique_violation : error :=
  ErrSqlite "UNIQUE constraint failed: Certificates.id".

(** [sql.Open("sqlite3", filepath.Join(dbPath, getDBName()))] *)
Definition sql_Open : M (option Handle * option error) :=
  traced EvOpen (
    fault <- consult ;;
    match fault with
    | Some e => ret (None, Some e)
    | None =>
        h <- get next_handle ;;
        modify (fun w => set_next_handle (S h) (set_handles ({[h]} ∪ handles w) w)) ;;
        ret (Some h, None)
    end).

(** [db.Ping()] *)
Definition DB_Ping (p : option Handle) : M (option error) :=
  h <- deref p ;;
  traced (EvPing h) (
    fault <- consult ;;
    match fault with
    | Some e => ret (Some e)
    | None => connect h
    end).

(** [db.Close()]: the handle is closed whatever the call reports. *)
Definition DB_Close (p : option Handle) : M (option error) :=
  h <- deref p ;;
  emit (EvClose h) ;;
  modify (fun w => set_handles (handles w ∖ {[h]}) w) ;;
  ret None.

(** [db.Exec("CREATE TABLE IF NOT EXISTS Certificates (...)")] *)
Definition DB_Exec_CreateTable (p : option Handle) : M (option error) :=
  h <- deref p ;;
  traced (EvExec CreateTable) (
    fault <- consult ;;
    match fault with
    | Some e => ret (Some e)
    | None =>
        err <- connect h ;;
        match err with
        | Some e => ret (Some e)
        | None =>
            d <- get fs ;;
            match d with
            | None => ret (Some (ErrSqlite "unable to open database file"))
            | Some files =>
                match files !! getDBName with
                | Some (DbFile (Some _)) => ret None
                | Some (DbFile None) | None =>
                    modify (set_fs (Some (<[getDBName := DbFile (Some ∅)]> files))) ;;
                    ret None
                | Some OtherFile => ret (Some (ErrSqlite "file is not a database"))
                end
            end
        end
    end).

(** [row := db.QueryRow("SELECT cert FROM Certificates where id = ?", id);
    err := row.Scan(&cert)]: the scanned value and the error of [Scan]. *)
Definition DB_QueryRow_Scan (p : option Handle) (id : string) : M (GoBytes * option error) :=
  h <- deref p ;;
  traced (EvQueryRow h id) (
    fault <- consult ;;
    match fault with
    | Some e => ret (None, Some e)
    | None =>
        err <- connect h ;;
        match err with
        | Some e => ret (None, Some e)
        | None =>
            t <- get (fun w => table_of (fs w)) ;;
            match t with
            | inr e => ret (None, Some e)
            | inl t =>
                match t !! id with
                | None => ret (None, Some ErrNoRows)
                | Some cert => ret (cert, None)
                end
            end
        end
    end).

(** A [*sql.Tx] remembers its connection; the staged rows are in [txn]. *)
Abbreviation Tx := nat (only parsing).

(** [db.Begin()] *)
Definition DB_Begin (p : option Handle) : M (option Tx * option error) :=
  h <- deref p ;;
  traced (fun r => EvBegin h (snd r)) (
    fault <- consult ;;
    match fault with
    | Some e => ret (None, Some e)
    | None =>
        err <- connect h ;;
        match err with
        | Some e => ret (None, Some e)
        | None => modify (set_txn (Some [])) ;; ret (Some h, None)
        end
    end).

(** [tx.Exec("INSERT INTO Certificates (id, cert) VALUES (?, ?)", id, cert)]:
    a failing statement leaves the transaction as it was. *)
Definition Tx_Exec_Insert (p : option Tx) (id : string) (cert : GoBytes) : M (option error) :=
  _ <- deref p ;;
  traced (EvExec (Insert id cert)) (
    staged <- get txn ;;
    match staged with
    | None => ret (Some ErrTxDone)
    | Some rows =>
        fault <- consult ;;
        match fault with
        | Some e => ret (Some e)
        | None =>
            t <- get (fun w => table_of (fs w)) ;;
            match t with
            | inr e => ret (Some e)
            | inl t =>
                match t !! id with
                | Some _ => ret (Some unique_violation)
                | None =>
                    if has_key id rows then ret (Some unique_violation)
                    else modify (set_txn (Some (rows ++ [(id, cert)])%list)) ;; ret None
                end
            end
        end
    end).

(** [tx.Commit()]: the transaction is over whether the commit succeeds or
    not; the staged rows reach the table only when it succeeds. *)
Definition Tx_Commit (p : option Tx) : M (option error) :=
  _ <- deref p ;;
  traced EvCommit (
    staged <- get txn ;;
    match staged with
    | None => ret (Some ErrTxDone)
    | Some rows =>
        modify (set_txn None) ;;
        fault <- consult ;;
        match fault with
        | Some e => ret (Some e)
        | None =>
            t <- get (fun w => table_of (fs w)) ;;
            match t with
            | inr e => ret (Some e)
            | inl t =>
                match apply_rows rows t with
                | None => ret (Some unique_violation)
                | Some t' => modify (fun w => set_fs (write_table t' (fs w)) w) ;; ret None
                end
            end
        end
    end).

(** [tx.Rollback()]: the staged rows are dropped. *)
Definition Tx_Rollback (p : option Tx) : M (option error) :=
  _ <- deref p ;;
  traced EvRollback (
    staged <- get txn ;;
    match staged with
    | None => ret (Some ErrTxDone)
    | Some _ => modify (set_txn None) ;; ret None
    end).

(** ** os *)

(** [os.MkdirAll(dbPath, 0755)] *)
Definition os_MkdirAll : M (option error) :=
  traced EvMkdirAll (
    fault <- consult ;;
    match fault with
    | Some e => ret (Some e)
    | None =>
        modify (fun w => match fs w with None => set_fs (Some ∅) w | Some _ => w end) ;;
        ret None
    end).

(** [os.RemoveAll(getDBPath())] *)
Definition os_RemoveAll : M (option error) :=
  traced EvRemoveAll (
    fault <- consult ;;
    match fault with
    | Some e => ret (Some e)
    | None => modify (set_fs None) ;; ret None
    end).

(** Modelled from the spec: [utils.DirMissingOrEmpty], the path resolver's
    [isMissingOrEmpty(path) -> bool] of section 4.1, is not part of the
    source file.  It observes the directory [getDBPath()] and reports no
    error. *)
Definition DirMissingOrEmpty : M (bool * option error) :=
  d <- get fs ;;
  match d with
  | None => ret (true, None)
  | Some files => ret (bool_decide (dom files = ∅), None)
  end.

(** Modelled from the spec: [utils.FileMissing], the path resolver's
    [isFileMissing(path, name) -> bool] of section 4.1, is not part of the
    source file.  It observes the directory [getDBPath()]; a missing file
    comes with the error of the failed [os.Stat]. *)
Definition FileMissing (name : string) : M (bool * option error) :=
  d <- get fs ;;
  match d with
  | None => ret (true, Some ErrNotExist)
  | Some files =>
      match files !! name with
      | Some _ => ret (false, None)
      | None => ret (true, Some ErrNotExist)
      end
  end.

(** ** Base64 *)

(** The standard base64 encoding with padding (RFC 4648), the encoder the
    specification names for the identity key.  The validator below is
    stated over any encoder; this one instantiates it in the examples. *)
Module Base64.

Definition alphabet : list ascii :=
  list_ascii_of_string
    "ABCDEFGHIJKLMNOPQRSTUVWXYZabcdefghijklmnopqrstuvwxyz0123456789+/".

Definition digit (n : N) : ascii := nth (N.to_nat n) alphabet "="%char.

Fixpoint encode (l : list Byte.byte) : string :=
  match l with
  | [] => ""
  | [a] =>
      let x := Byte.to_N a in
      String (digit (x / 4))
        (String (digit ((x mod 4) * 16)) "==")
  | [a; b] =>
      let x := Byte.to_N a in
      let y := Byte.to_N b in
      String (digit (x / 4))
        (String (digit ((x mod 4) * 16 + y / 16))
           (String (digit ((y mod 16) * 4)) "="))
  | a :: b :: c :: rest =>
      let x := Byte.to_N a in
      let y := Byte.to_N b in
      let z := Byte.to_N c in
      String (digit (x / 4))
        (String (digit ((x mod 4) * 16 + y / 16))
           (String (digit ((y mod 16) * 4 + z / 64))
              (String (digit (z mod 64)) (encode rest))))
  end.

(** [base64.StdEncoding.EncodeToString]: nil and the empty slice both
    encode to the empty string. *)
Definition EncodeBase64 (b : GoBytes) : string :=
  match b with
  | None => ""
  | Some l => encode l
  end.

End Base64.

(** ** A scenario *)

(** The example of the specification: the identity [0x01 0x02], whose key
    is ["AQI="], the certificate [0xAA 0xBB], and a few fetchers and
    worlds to run the store on. *)
Module Scenario.

Definition id12 : GoBytes := Some [Byte.x01; Byte.x02].

Definition key12 : string := "AQI=".

Definition certAB : GoBytes := Some [Byte.xaa; Byte.xbb].

Definition fetchAB (_ : GoBytes) : GoBytes * option error := (certAB, None).

(** A fetcher that reports success and hands back no certificate. *)
Definition fetchNil (_ : GoBytes) : GoBytes * option error := (None, None).

Definition fetchFails (_ : GoBytes) : GoBytes * option error :=
  (None, Some (ErrNew "ECA unreachable")).

(** No directory yet, nothing open. *)
Definition empty_path (o : list Directive) : World :=
  mkWorld None ∅ 0 None false None o [] [].

(** The store after [initDB] on an empty path: the table holds [t],
    handle 1 is open and is the one of the package variable [db]. *)
Definition the_db : option DB := Some (mkDB (Some 1)).

Definition opened (t : gmap string GoBytes) (o : list Directive) : World :=
  mkWorld (Some {[ getDBName := DbFile (Some t) ]}) {[ 1 ]} 2 None true the_db o [] [].

(** A directory that holds a file named [db] and no store file. *)
Definition stray_file : World :=
  mkWorld (Some {[ "db" := OtherFile ]}) ∅ 0 None false None [] [] [].

(** Another client tears the store down and bootstraps it again. *)
Definition reset_by_other_client : Directive :=
  Env (fun _ => Some {[ getDBName := DbFile (Some ∅) ]}).

End Scenario.

(** ** The validator's store *)

Section Validator.

(** [utils.EncodeBase64] and [getDBFilename] live in other files of the
    package; the store is stated over any encoder and any file name. *)
Variable EncodeBase64 : GoBytes -> string.
Variable getDBFilename : string.

(** [var ErrDBAlreadyInitialized error]; no function of the file returns
    it. *)
Definition ErrDBAlreadyInitialized : error := ErrNew "DB already Initilized.".

(** [func (db *DB) Init() error] *)
Definition Init (db : option DB) : M (option error) :=
  ret None.

(** [func (db *DB) selectEnrollmentCert(id string) ([]byte, error)] *)
Definition selectEnrollmentCert (db : option DB) (id : string) : M (GoBytes * option error) :=
  log Info "Select Enrollment TCert..." ;;
  d <- deref db ;;
  let* (cert, err) := DB_QueryRow_Scan (sqlDB d) id in
  match err with
  | Some ErrNoRows => ret (None, None)
  | Some e =>
      log Error "Error during select: %s" ;;
      ret (None, Some e)
  | None =>
      log Info "cert %s" ;;
      log Info "Select Enrollment Cert...done!" ;;
      ret (cert, None)
  end.

(** The call [certFetcher(id)]. *)
Definition call (certFetcher : GoBytes -> GoBytes * option error) (id : GoBytes)
  : M (GoBytes * option error) :=
  traced (EvFetch id) (ret (certFetcher id)).

(** [func (db *DB) GetEnrollmentCert(id []byte,
      certFetcher func(id []byte) ([]byte, error)) ([]byte, error)] *)
Definition GetEnrollmentCert (db : option DB) (id : GoBytes)
    (certFetcher : GoBytes -> GoBytes * option error) : M (GoBytes * option error) :=
  let sid := EncodeBase64 id in
  let* (cert, err) := selectEnrollmentCert db sid in
  match err with
  | Some e =>
      log Error "Failed selecting enrollment cert: %s" ;;
      ret (None, Some e)
  | None =>
      log Info "GetEnrollmentCert:cert %s" ;;
      match cert with
      | None =>
          (* If No cert is available, fetch from ECA *)
          (* 1. Fetch *)
          log Info "Fectch Enrollment Certificate from ECA..." ;;
          let* (cert, err) := call certFetcher id in
          match err with
          | Some e => ret (None, Some e)
          | None =>
              (* 2. Store *)
              log Info "Store certificate..." ;;
              d <- deref db ;;
              let* (tx, err) := DB_Begin (sqlDB d) in
              match err with
              | Some e =>
                  log Error "Failed beginning transaction: %s" ;;
                  ret (None, Some e)
              | None =>
                  log Info "Insert id %s" ;;
                  log Info "Insert cert %s" ;;
                  err <- Tx_Exec_Insert tx sid cert ;;
                  match err with
                  | Some e =>
                      log Error "Failed inserting cert %s" ;;
                      Tx_Rollback tx ;;
                      ret (None, Some e)
                  | None =>
                      err <- Tx_Commit tx ;;
                      match err with
                      | Some e =>
                          log Error "Failed committing transaction: %s" ;;
                          Tx_Rollback tx ;;
                          ret (None, Some e)
                      | None =>
                          log Info "Fectch Enrollment Certificate from ECA...done!" ;;
                          let* (cert, err) := selectEnrollmentCert db sid in
                          match err with
                          | Some e =>
                              log Error "Failed selecting next TCert after fetching: %s" ;;
                              ret (None, Some e)
                          | None => ret (cert, None)
                          end
                      end
                  end
              end
          end
      | Some _ => ret (cert, None)
      end
  end.


(** [func createDB() error] *)
Definition createDB : M (option error) :=
  log Debug "Creating DB at [%s]" ;;
  let* (missing, err) := FileMissing getDBFilename in
  if negb missing then ret (Some (ErrNew "db dir [%s] already exists")) else
  os_MkdirAll ;;
  log Debug "Open DB at [%s]" ;;
  let* (db, err) := sql_Open in
  match err with
  | Some e => ret (Some e)
  | None =>
      log Debug "Ping DB at [%s]" ;;
      err <- DB_Ping db ;;
      match err with
      | Some _ => log_Fatal
      | None => ret tt
      end ;;
      defer (DB_Close db) (
        (* create tables *)
        log Debug "Create Table [%s] at [%s]" ;;
        err <- DB_Exec_CreateTable db ;;
        match err with
        | Some e =>
            log Debug "Failed creating table: %s" ;;
            ret (Some e)
        | None =>
            log Debug "DB created at [%s]" ;;
            ret None
        end)
  end.



(** [func createDBIfDBPathEmpty() error] *)
Definition createDBIfDBPathEmpty : M (option error) :=
  (* Check directory *)
  let* (missing, err) := DirMissingOrEmpty in
  match err with
  | Some _ => log Error "Failed checking directory %s: %s"
  | None => ret tt
  end ;;
  log Debug "Db path [%s] missing [%t]" ;;
  missing <-
    (if negb missing then
       (* Check file *)
       let* (missing, err) := FileMissing getDBName in
       match err with
       | Some _ => log Error "Failed checking file %s: %s"
       | None => ret tt
       end ;;
       log Debug "Db file [%s] missing [%t]" ;;
       ret missing
     else ret missing) ;;
  if missing then
    err <- createDB ;;
    match err with
    | Some _ =>
        log Debug "Failed creating db At [%s]: %s" ;;
        ret None
    | None => ret None
    end
  else ret None.

(** [func openDB()], returning a [*DB] and an [error] *)
Definition openDB : M (option DB * option error) :=
  open <- get isOpen ;;
  if open : bool then
    d <- get db ;;
    ret (d, None)
  else
    let* (sqlDB, err) := sql_Open in
    match err with
    | Some e =>
        log Error "Error opening DB" ;;
        ret (None, Some e)
    | None =>
        modify (set_isOpen true) ;;
        ret (Some (mkDB sqlDB), None)
    end.

(** [func initDB() error]; the assignment [db, err = openDB()] writes the
    package variable whatever [openDB] returns. *)
Definition initDB : M (option error) :=
  open <- get isOpen ;;
  if open : bool then ret (Some (ErrNew "DB already initialized.")) else
  err <- createDBIfDBPathEmpty ;;
  match err with
  | Some e => ret (Some e)
  | None =>
      let* (d, err) := openDB in
      modify (set_db d) ;;
      match err with
      | Some e => ret (Some e)
      | None => ret None
      end
  end.

(** ** Vocabulary of the statements *)

(** The row stored under key [k], if the table is there and has one. *)
Definition stored_in (d : option (gmap string File)) (k : string) : option GoBytes :=
  match table_of d with
  | inl t => t !! k
  | inr _ => None
  end.

Definition stored (w : World) (k : string) : option GoBytes :=
  stored_in (fs w) k.

(** The next [n] calls meet no failure and no other client. *)
Fixpoint calm (n : nat) (o : list Directive) : Prop :=
  match n with
  | 0 => True
  | S n' => hd Normal o = Normal /\ calm n' (tl o)
  end.

(** No other client acts on the directory: calls go through or fail. *)
Definition no_env (d : Directive) : Prop :=
  match d with
  | Env _ => False
  | _ => True
  end.

Definition quiet (o : list Directive) : Prop := Forall no_env o.



(** Open handles are below the next one to be handed out. *)
Definition handles_fresh (w : World) : Prop :=
  forall h, h ∈ handles w -> h < next_handle w.

(** The events a call added to the trace. *)
Definition added (evs : list Event) (w w' : World) : Prop :=
  trace w' = (evs ++ trace w)%list.

(** A call into the engine: it returns, it is recorded with its result,
    and it leaves the handles, the package variables and the log alone. *)
Definition engine_call {A} (ev : A -> Event) (m : M A) : Prop :=
  forall w, exists a fs' txn' o',
    m w = (Returned a,
           mkWorld fs' (handles w) (next_handle w) txn' (isOpen w) (db w) o'
             (ev a :: trace w) (logs w)).

(** [m] relates the world it starts in to the world it ends in by [R],
    however it ends. *)
Definition keeps (R : World -> World -> Prop) {A} (m : M A) : Prop :=
  forall w, R w (snd (m w)).

(** The package variables are as they were. *)
Definition same_vars (w w' : World) : Prop :=
  isOpen w' = isOpen w /\ db w' = db w.

(** How often the table-creating statement was issued. *)
Definition is_create (e : Event) : bool :=
  match e with
  | EvExec CreateTable _ => true
  | _ => false
  end.

Definition schema_creations (w : World) : nat :=
  length (filter is_create (trace w)).

Definition is_fetch (e : Event) : bool :=
  match e with
  | EvFetch _ _ => true
  | _ => false
  end.

(** How often a certificate fetcher was called. *)
Definition fetch_calls (w : World) : nat :=
  length (filter is_fetch (trace w)).

(** The existence checks that open [createDBIfDBPathEmpty], taken alone:
    the value of [missing] when the function decides whether to create. *)
Definition bootstrap_checks : M bool :=
  let* (missing, err) := DirMissingOrEmpty in
  match err with
  | Some _ => log Error "Failed checking directory %s: %s"
  | None => ret tt
  end ;;
  log Debug "Db path [%s] missing [%t]" ;;
  if negb missing then
    let* (missing, err) := FileMissing getDBName in
    match err with
    | Some _ => log Error "Failed checking file %s: %s"
    | None => ret tt
    end ;;
    log Debug "Db file [%s] missing [%t]" ;;
    ret missing
  else ret missing.





(** ** Running the monad *)

(** Unfolds the monad and the record plumbing, nothing else. *)
Ltac msimpl :=
  cbv beta iota zeta delta
    [bind ret get modify emit traced log exit panic deref defer log_Fatal
     set_fs set_handles set_next_handle set_txn set_isOpen set_db set_oracle
     set_trace set_logs fs handles next_handle txn isOpen db oracle trace logs
     sqlDB fst snd table_of write_table orb andb negb];
  cbn [app has_key existsb hd tl apply_rows].

Ltac msimpl_in H :=
  cbv beta iota zeta delta
    [bind ret get modify emit traced log exit panic deref defer log_Fatal
     set_fs set_handles set_next_handle set_txn set_isOpen set_db set_oracle
     set_trace set_logs fs handles next_handle txn isOpen db oracle trace logs
     sqlDB fst snd table_of write_table orb andb negb] in H;
  cbn [app has_key existsb hd tl apply_rows] in H.

Ltac unfold_engine :=
  unfold sql_Open, DB_Ping, DB_Close, DB_Exec_CreateTable, DB_QueryRow_Scan,
    DB_Begin, Tx_Exec_Insert, Tx_Commit, Tx_Rollback, os_MkdirAll, os_RemoveAll,
    DirMissingOrEmpty, FileMissing, consult, connect.

(** Splits on the scrutinee of every match the engine left open. *)
Ltac engine_cases :=
  repeat (msimpl;
          match goal with
          | |- context [match ?x with _ => _ end] =>
              lazymatch x with
              | context [match _ with _ => _ end] => fail
              | _ => destruct x eqn:?
              end
          end).

(** *** The engine calls *)

Lemma DB_QueryRow_Scan_call h id :
  engine_call (EvQueryRow h id) (DB_QueryRow_Scan (Some h) id).
Proof.
  intros [fs0 hs nh tx io gdb o tr lg]. unfold_engine.
  engine_cases; do 4 eexists; reflexivity.
Qed.

Lemma DB_Begin_call h :
  engine_call (fun r => EvBegin h (snd r)) (DB_Begin (Some h)).
Proof.
  intros [fs0 hs nh tx io gdb o tr lg]. unfold_engine.
  engine_cases; eexists (_, _); do 3 eexists; reflexivity.
Qed.

Lemma Tx_Exec_Insert_call h id cert :
  engine_call (EvExec (Insert id cert)) (Tx_Exec_Insert (Some h) id cert).
Proof.
  intros [fs0 hs nh tx io gdb o tr lg]. unfold_engine.
  engine_cases; do 4 eexists; reflexivity.
Qed.

Lemma Tx_Commit_call h :
  engine_call EvCommit (Tx_Commit (Some h)).
Proof.
  intros [fs0 hs nh tx io gdb o tr lg]. unfold_engine.
  engine_cases; do 4 eexists; reflexivity.
Qed.

(** A rollback always leaves no transaction open, and touches nothing
    else. *)
Lemma Tx_Rollback_run h w :
  exists err,
    Tx_Rollback (Some h) w
    = (Returned err, set_trace (EvRollback err :: trace w) (set_txn None w))
    /\ (is_Some (txn w) -> err = None).
Proof.
  destruct w as [fs0 hs nh tx io gdb o tr lg]. unfold_engine.
  destruct tx; msimpl; eexists; (split; [reflexivity|]); intros Hs; try reflexivity.
  destruct Hs; discriminate.
Qed.

Lemma DB_Ping_call h : engine_call (EvPing h) (DB_Ping (Some h)).
Proof.
  intros [fs0 hs nh tx io gdb o tr lg]. unfold_engine.
  engine_cases; do 4 eexists; reflexivity.
Qed.

Lemma DB_Exec_CreateTable_call h :
  engine_call (EvExec CreateTable) (DB_Exec_CreateTable (Some h)).
Proof.
  intros [fs0 hs nh tx io gdb o tr lg]. unfold_engine.
  engine_cases; do 4 eexists; reflexivity.
Qed.

Lemma os_MkdirAll_call : engine_call EvMkdirAll os_MkdirAll.
Proof.
  intros [fs0 hs nh tx io gdb o tr lg]. unfold_engine.
  engine_cases; do 4 eexists; reflexivity.
Qed.

Lemma os_RemoveAll_call : engine_call EvRemoveAll os_RemoveAll.
Proof.
  intros [fs0 hs nh tx io gdb o tr lg]. unfold_engine.
  engine_cases; do 4 eexists; reflexivity.
Qed.

(** [sql.Open] hands out the next handle, or fails and opens nothing. *)
Lemma sql_Open_run w :
  exists r fs',
    sql_Open w
    = (Returned r,
       mkWorld fs'
         (match fst r with Some h => {[h]} ∪ handles w | None => handles w end)
         (match fst r with Some _ => S (next_handle w) | None => next_handle w end)
         (txn w) (isOpen w) (db w) (tl (oracle w)) (EvOpen r :: trace w) (logs w))
    /\ (r = (Some (next_handle w), None) \/ exists e, r = (None, Some e)).
Proof.
  destruct w as [fs0 hs nh tx io gdb o tr lg]. unfold_engine.
  engine_cases;
    lazymatch goal with
    | |- exists r fs', (Returned ?x, _) = _ /\ _ => exists x
    end;
    eexists; (split; [reflexivity|]); eauto.
Qed.

Lemma DB_Close_run h w :
  DB_Close (Some h) w
  = (Returned None, set_handles (handles w ∖ {[h]}) (set_trace (EvClose h :: trace w) w)).
Proof. reflexivity. Qed.

(** The existence checks only look. *)
Lemma FileMissing_run name w : exists r, FileMissing name w = (Returned r, w).
Proof.
  unfold FileMissing, bind, get, ret.
  destruct (fs w) as [files|]; [destruct (files !! name)|]; eauto.
Qed.

Lemma DirMissingOrEmpty_run w : exists r, DirMissingOrEmpty w = (Returned r, w).
Proof.
  unfold DirMissingOrEmpty, bind, get, ret. destruct (fs w); eauto.
Qed.

(** One step of a run in which the engine is a black box: the next call
    is replaced by its result, an unknown value in a world that differs as
    the call's lemma says. *)
Ltac engine_step :=
  match goal with
  | |- context [DB_QueryRow_Scan (Some ?h) ?id ?W] =>
      let E := fresh "E" in
      destruct (DB_QueryRow_Scan_call h id W) as (? & ? & ? & ? & E);
      msimpl_in E; rewrite E; clear E
  | |- context [DB_Begin (Some ?h) ?W] =>
      let E := fresh "E" in
      destruct (DB_Begin_call h W) as (? & ? & ? & ? & E);
      msimpl_in E; rewrite E; clear E
  | |- context [Tx_Exec_Insert (Some ?h) ?id ?c ?W] =>
      let E := fresh "E" in
      destruct (Tx_Exec_Insert_call h id c W) as (? & ? & ? & ? & E);
      msimpl_in E; rewrite E; clear E
  | |- context [Tx_Commit (Some ?h) ?W] =>
      let E := fresh "E" in
      destruct (Tx_Commit_call h W) as (? & ? & ? & ? & E);
      msimpl_in E; rewrite E; clear E
  | |- context [Tx_Rollback (Some ?h) ?W] =>
      let E := fresh "E" in
      destruct (Tx_Rollback_run h W) as (? & E & ?);
      msimpl_in E; rewrite E; clear E
  | |- context [DB_Ping (Some ?h) ?W] =>
      let E := fresh "E" in
      destruct (DB_Ping_call h W) as (? & ? & ? & ? & E);
      msimpl_in E; rewrite E; clear E
  | |- context [DB_Exec_CreateTable (Some ?h) ?W] =>
      let E := fresh "E" in
      destruct (DB_Exec_CreateTable_call h W) as (? & ? & ? & ? & E);
      msimpl_in E; rewrite E; clear E
  | |- context [DB_Close (Some ?h) ?W] =>
      rewrite (DB_Close_run h W)
  | |- context [os_MkdirAll ?W] =>
      let E := fresh "E" in
      destruct (os_MkdirAll_call W) as (? & ? & ? & ? & E);
      msimpl_in E; rewrite E; clear E
  | |- context [os_RemoveAll ?W] =>
      let E := fresh "E" in
      destruct (os_RemoveAll_call W) as (? & ? & ? & ? & E);
      msimpl_in E; rewrite E; clear E
  | |- context [sql_Open ?W] =>
      let E := fresh "E" in
      destruct (sql_Open_run W) as (? & ? & E & [->|[? ->]]);
      msimpl_in E; rewrite E; clear E
  | |- context [DB_QueryRow_Scan None ?id ?W] =>
      change (DB_QueryRow_Scan None id W) with (@Panicked (GoBytes * option error), W)
  | |- context [DB_Begin None ?W] =>
      change (DB_Begin None W) with (@Panicked (option Tx * option error), W)
  | |- context [Tx_Exec_Insert None ?id ?c ?W] =>
      change (Tx_Exec_Insert None id c W) with (@Panicked (option error), W)
  | |- context [Tx_Commit None ?W] =>
      change (Tx_Commit None W) with (@Panicked (option error), W)
  | |- context [Tx_Rollback None ?W] =>
      change (Tx_Rollback None W) with (@Panicked (option error), W)
  | |- context [DB_Ping None ?W] =>
      change (DB_Ping None W) with (@Panicked (option error), W)
  | |- context [DB_Exec_CreateTable None ?W] =>
      change (DB_Exec_CreateTable None W) with (@Panicked (option error), W)
  | |- context [DB_Close None ?W] =>
      change (DB_Close None W) with (@Panicked (option error), W)
  | |- context [FileMissing ?n ?W] =>
      let E := fresh "E" in
      destruct (FileMissing_run n W) as (? & E); rewrite E; clear E
  | |- context [DirMissingOrEmpty ?W] =>
      let E := fresh "E" in
      destruct (DirMissingOrEmpty_run W) as (? & E); rewrite E; clear E
  end.

(** Splits on a result the run depends on. *)
Ltac result_case :=
  match goal with
  | |- context [match ?x with _ => _ end] => is_var x; destruct x
  | |- context [match ?f ?i with _ => _ end] => is_var f; destruct (f i) eqn:?
  | |- context [Tx_Exec_Insert ?p] => is_var p; destruct p
  | |- context [Tx_Commit ?p] => is_var p; destruct p
  | |- context [Tx_Rollback ?p] => is_var p; destruct p
  | |- context [DB_Ping ?p] => is_var p; destruct p
  | |- context [DB_Exec_CreateTable ?p] => is_var p; destruct p
  | |- context [DB_Close ?p] => is_var p; destruct p
  end.

Ltac run_engine := repeat (msimpl; first [engine_step | result_case]).

(** *** Facts about the vocabulary *)

Lemma table_of_inl d t :
  table_of d = inl t ->
  exists files, d = Some files /\ files !! getDBName = Some (DbFile (Some t)).
Proof.
  unfold table_of. destruct d as [files|]; [|discriminate].
  destruct (files !! getDBName) as [[|[t'|]]|] eqn:E; try discriminate.
  intros [= ->]. eauto.
Qed.

Lemma stored_Some w k v :
  stored w k = Some v ->
  exists files t,
    fs w = Some files /\ files !! getDBName = Some (DbFile (Some t)) /\ t !! k = Some v.
Proof.
  unfold stored, stored_in. destruct (table_of (fs w)) as [t|e] eqn:E; [|discriminate].
  intros Hk. apply table_of_inl in E as (files & ? & ?). eauto.
Qed.

Lemma dir_not_empty (files : gmap string File) k f :
  files !! k = Some f -> bool_decide (dom files = ∅) = false.
Proof.
  intros Hk. apply bool_decide_eq_false. intros Hd.
  apply dom_empty_iff_L in Hd. subst files. by rewrite lookup_empty in Hk.
Qed.

Lemma quiet_hd o : quiet o -> no_env (hd Normal o).
Proof. intros [|d o' Hd _]; [exact I | exact Hd]. Qed.

Lemma quiet_tl o : quiet o -> quiet (tl o).
Proof. intros [|d o' _ Ho]; [constructor | exact Ho]. Qed.

(** ** The exported [Init] *)

(** C9. [DB.Init] returns nil whatever the receiver, a nil pointer
    included, and whatever the state of the world, which it leaves as it
    is: it does no initialization work. *)
Theorem Init_returns_nil (d : option DB) (w : World) :
  Init d w = (Returned None, w).
Proof. reflexivity. Qed.

(** ** The double-initialization guard *)

(** C6. While the package-level flag [isOpen] is set, [initDB] returns the
    error "DB already initialized." and does nothing else: no bootstrap,
    no open, the world is untouched. *)
Theorem initDB_already_initialized (w : World) :
  isOpen w = true ->
  initDB w = (Returned (Some (ErrNew "DB already initialized.")), w).
Proof.
  intros Hopen. unfold initDB, bind, get. rewrite Hopen. reflexivity.
Qed.

(** ** The fetch-through protocol *)


(** The lookup on a row that is there, on an open handle, when the query
    goes through: it returns what the row holds, be it NULL. *)
Lemma selectEnrollmentCert_finds_row (h : Handle) (id : string) (c : GoBytes) (w : World) :
  h ∈ handles w ->
  stored w id = Some c ->
  hd Normal (oracle w) = Normal ->
  selectEnrollmentCert (Some (mkDB (Some h))) id w
  = (Returned (c, None),
     set_logs ((Info, "Select Enrollment Cert...done!") :: (Info, "cert %s")
               :: (Info, "Select Enrollment TCert...") :: logs w)
       (set_trace (EvQueryRow h id (c, None) :: trace w)
          (set_oracle (tl (oracle w)) w))).
Proof.
  intros Hh Hs H1.
  apply stored_Some in Hs as (files & t & Hfs & Hfile & Hrow).
  destruct w as [fs0 hs nh tx io gdb o tr lg]; simpl in *; subst fs0.
  unfold selectEnrollmentCert. unfold_engine.
  repeat (msimpl;
          first [ rewrite H1 | rewrite (bool_decide_eq_true_2 _ Hh)
                | rewrite Hfile | rewrite Hrow ]).
  reflexivity.
Qed.

(** C2, as the code has it.  When the row of the identity holds a non-nil
    certificate and the lookup goes through on an open handle,
    [GetEnrollmentCert] returns the stored certificate with a nil error
    whatever the fetcher is; the only call it makes is the lookup, so the
    fetcher is not called and the store is not written. *)
Theorem GetEnrollmentCert_hit
    (h : Handle) (id : GoBytes) (certFetcher : GoBytes -> GoBytes * option error)
    (c : list Byte.byte) (w : World) :
  h ∈ handles w ->
  stored w (EncodeBase64 id) = Some (Some c) ->
  hd Normal (oracle w) = Normal ->
  exists w',
    GetEnrollmentCert (Some (mkDB (Some h))) id certFetcher w = (Returned (Some c, None), w')
    /\ added [EvQueryRow h (EncodeBase64 id) (Some c, None)] w w'
    /\ fetch_calls w' = fetch_calls w
    /\ fs w' = fs w
    /\ txn w' = txn w.
Proof.
  intros Hh Hs H1.
  eexists. split.
  - unfold GetEnrollmentCert. unfold bind at 1.
    rewrite (selectEnrollmentCert_finds_row h _ (Some c) w Hh Hs H1).
    msimpl. reflexivity.
  - destruct w as [fs0 hs nh tx io gdb o tr lg].
    unfold added, fetch_calls. msimpl. repeat split; reflexivity.
Qed.

(** ** Bootstrap *)

(** [createDBIfDBPathEmpty] is its existence checks followed by the
    decision on [missing]. *)
Lemma createDBIfDBPathEmpty_checks (w : World) :
  createDBIfDBPathEmpty w
  = (missing <- bootstrap_checks ;;
     if missing : bool then
       err <- createDB ;;
       match err with
       | Some _ => log Debug "Failed creating db At [%s]: %s" ;; ret None
       | None => ret None
       end
     else ret None) w.
Proof.
  destruct w as [fs0 hs nh tx io gdb o tr lg].
  unfold createDBIfDBPathEmpty, bootstrap_checks. unfold_engine. msimpl.
  destruct fs0 as [files|]; [|reflexivity].
  destruct (bool_decide (dom files = ∅)); msimpl; [reflexivity|].
  destruct (files !! getDBName); reflexivity.
Qed.

(** C7. When the existence checks of [createDBIfDBPathEmpty] call for a
    creation and [createDB] then returns an error, the function logs
    "Failed creating db ..." and returns nil: the error does not reach the
    caller. *)
Theorem createDBIfDBPathEmpty_swallows_failure (w w1 w2 : World) (e : error) :
  bootstrap_checks w = (Returned true, w1) ->
  createDB w1 = (Returned (Some e), w2) ->
  createDBIfDBPathEmpty w
  = (Returned None,
     set_logs ((Debug, "Failed creating db At [%s]: %s") :: logs w2) w2).
Proof.
  intros Hchecks Hcreate.
  rewrite createDBIfDBPathEmpty_checks.
  unfold bind at 1. rewrite Hchecks.
  unfold bind at 1. rewrite Hcreate.
  reflexivity.
Qed.

(** C5. (1) When the directory exists and holds the store file,
    [createDBIfDBPathEmpty] returns nil after its two log lines and
    changes nothing else: no call to the engine or to the file system.
    (2) Hence on a missing or empty directory, with nothing failing, two
    runs in a row both return nil, the second one changes nothing but the
    log, the table-creating statement is issued exactly once, and the
    table exists, empty, at the end. *)
Theorem createDBIfDBPathEmpty_idempotent :
  (forall (w : World) (files : gmap string File) (f : File),
      fs w = Some files ->
      files !! getDBName = Some f ->
      createDBIfDBPathEmpty w
      = (Returned None,
         set_logs ((Debug, "Db file [%s] missing [%t]")
                   :: (Debug, "Db path [%s] missing [%t]") :: logs w) w))
  /\ (forall (w : World),
         fs w = None \/ fs w = Some ∅ ->
         calm 4 (oracle w) ->
         exists w1 w2,
           createDBIfDBPathEmpty w = (Returned None, w1)
           /\ createDBIfDBPathEmpty w1 = (Returned None, w2)
           /\ w2 = set_logs (logs w2) w1
           /\ table_of (fs w2) = inl ∅
           /\ schema_creations w2 = S (schema_creations w)
           /\ handles w2 = handles w ∖ {[next_handle w]}
           /\ isOpen w2 = isOpen w).
Proof.
  split.
  - intros w files f Hfs Hfile.
    destruct w as [fs0 hs nh tx io gdb o tr lg]; simpl in *; subst fs0.
    unfold createDBIfDBPathEmpty. unfold_engine. msimpl.
    rewrite (dir_not_empty _ _ _ Hfile). msimpl. rewrite Hfile. reflexivity.
  - intros w Hempty (H1 & H2 & H3 & H4 & _).
    destruct w as [fs0 hs nh tx io gdb o tr lg]; simpl in *.
    assert (Hin : bool_decide (nh ∈ ({[nh]} ∪ hs : gset nat)) = true)
      by (apply bool_decide_eq_true_2, elem_of_union_l, elem_of_singleton; reflexivity).
    assert (Hne : bool_decide
                    (dom (<[getDBName:=DbFile (Some ∅)]> (∅ : gmap string File)) = ∅) = false)
      by (eapply dir_not_empty, lookup_insert_eq).
    do 2 eexists.
    destruct Hempty as [Hfs | Hfs]; subst fs0.
    + split; [|split].
      * unfold createDBIfDBPathEmpty, createDB. unfold_engine.
        repeat (msimpl;
                first [ rewrite H1 | rewrite H2 | rewrite H3 | rewrite H4
                      | rewrite Hin | rewrite lookup_empty
                      | rewrite lookup_insert_eq | rewrite insert_insert_eq ]).
        reflexivity.
      * unfold createDBIfDBPathEmpty, createDB. unfold_engine.
        repeat (msimpl;
                first [ rewrite Hne | rewrite lookup_insert_eq ]).
        reflexivity.
      * unfold schema_creations. msimpl. rewrite lookup_insert_eq.
        repeat split; try reflexivity.
        by rewrite difference_union_distr_l_L, difference_diag_L, union_empty_l_L.
    + split; [|split].
      * unfold createDBIfDBPathEmpty, createDB. unfold_engine.
        repeat (msimpl;
                first [ rewrite H1 | rewrite H2 | rewrite H3 | rewrite H4
                      | rewrite Hin | rewrite lookup_empty | rewrite dom_empty_L
                      | rewrite (bool_decide_eq_true_2 (∅ = ∅) eq_refl)
                      | rewrite lookup_insert_eq | rewrite insert_insert_eq ]).
        reflexivity.
      * unfold createDBIfDBPathEmpty, createDB. unfold_engine.
        repeat (msimpl;
                first [ rewrite Hne | rewrite lookup_insert_eq ]).
        reflexivity.
      * unfold schema_creations. msimpl. rewrite lookup_insert_eq.
        repeat split; try reflexivity.
        by rewrite difference_union_distr_l_L, difference_diag_L, union_empty_l_L.
Qed.

(** The events of a call are determined by the trace before and after. *)
Lemma added_inv (evs l : list Event) (w w' : World) :
  added evs w w' -> trace w' = (l ++ trace w)%list -> evs = l.
Proof.
  unfold added. intros H1 H2. rewrite H2 in H1.
  symmetry. by apply app_inv_tail in H1.
Qed.

(** The part of the list [l] that comes before its tail [t]. *)
Ltac prefix_of l t :=
  lazymatch l with
  | t => constr:(@nil Event)
  | ?x :: ?l' => let p := prefix_of l' t in constr:(x :: p)
  end.

(** Turns [Hadd : added evs w w'], over explicit worlds, into the value of
    [evs]. *)
Ltac added_is Hadd :=
  lazymatch type of Hadd with
  | added ?evs ?w ?w' =>
      let tw := eval cbv beta iota delta
                  [set_fs set_handles set_next_handle set_txn set_isOpen set_db
                   set_oracle set_trace set_logs fs handles next_handle txn isOpen
                   db oracle trace logs] in (trace w) in
      let tw' := eval cbv beta iota delta
                   [set_fs set_handles set_next_handle set_txn set_isOpen set_db
                    set_oracle set_trace set_logs fs handles next_handle txn isOpen
                    db oracle trace logs] in (trace w') in
      let p := prefix_of tw' tw in
      apply (fun H => added_inv evs p w w' H eq_refl) in Hadd
  end.


(** *** Relations kept by every step *)

Section Keeps.

Variable R : World -> World -> Prop.
Hypothesis R_refl : forall w, R w w.
Hypothesis R_trans : forall w1 w2 w3, R w1 w2 -> R w2 w3 -> R w1 w3.

Lemma keeps_ret {A} (a : A) : keeps R (ret a).
Proof. intros w. apply R_refl. Qed.

Lemma keeps_get {A} (f : World -> A) : keeps R (get f).
Proof. intros w. apply R_refl. Qed.

Lemma keeps_exit {A} : keeps R (@exit A).
Proof. intros w. apply R_refl. Qed.

Lemma keeps_panic {A} : keeps R (@panic A).
Proof. intros w. apply R_refl. Qed.

Lemma keeps_deref {A} (p : option A) : keeps R (deref p).
Proof. destruct p; [apply keeps_ret | apply keeps_panic]. Qed.

Lemma keeps_bind {A B} (m : M A) (k : A -> M B) :
  keeps R m -> (forall a, keeps R (k a)) -> keeps R (bind m k).
Proof.
  intros Hm Hk w. unfold bind. specialize (Hm w).
  destruct (m w) as [[a| |] w1]; simpl in *; try assumption.
  eapply R_trans; [exact Hm | apply Hk].
Qed.

Lemma keeps_defer {A B} (cleanup : M B) (body : M A) :
  keeps R cleanup -> keeps R body -> keeps R (defer cleanup body).
Proof.
  intros Hc Hb w. unfold defer. specialize (Hb w).
  destruct (body w) as [[a| |] w1]; simpl in *; try assumption;
    specialize (Hc w1); destruct (cleanup w1) as [[b| |] w2]; simpl in *;
    eapply R_trans; eassumption.
Qed.

End Keeps.

(** Walks through a function body, leaving the calls it does not know. *)
Ltac keeps_walk Hrefl Htrans :=
  repeat first
    [ apply (keeps_ret _ Hrefl)
    | apply (keeps_get _ Hrefl)
    | apply (keeps_exit _ Hrefl)
    | apply (keeps_panic _ Hrefl)
    | apply (keeps_deref _ Hrefl)
    | apply (keeps_bind _ Htrans)
    | apply (keeps_defer _ Htrans)
    | progress intros
    | match goal with
      | |- keeps _ (match ?x with _ => _ end) => destruct x
      | |- keeps _ (let '(_, _) := ?x in _) => destruct x
      end ].

Lemma same_vars_refl w : same_vars w w.
Proof. split; reflexivity. Qed.

Lemma same_vars_trans w1 w2 w3 : same_vars w1 w2 -> same_vars w2 w3 -> same_vars w1 w3.
Proof. intros [? ?] [? ?]. split; congruence. Qed.

(** A step that is not a sequence: run it on any world. *)
Ltac same_vars_leaf :=
  intros [? ? ? ? ? ? ? ? ?]; unfold same_vars, log; unfold_engine;
  engine_cases; split; reflexivity.

Lemma createDB_same_vars : keeps same_vars createDB.
Proof.
  unfold createDB, log_Fatal.
  keeps_walk same_vars_refl same_vars_trans; same_vars_leaf.
Qed.

Lemma createDBIfDBPathEmpty_same_vars : keeps same_vars createDBIfDBPathEmpty.
Proof.
  unfold createDBIfDBPathEmpty.
  keeps_walk same_vars_refl same_vars_trans;
    try apply createDB_same_vars; same_vars_leaf.
Qed.

(** C10. (1) However [createDB] ends, the flag [isOpen] and the variable
    [db] are as before.  (2) Whenever it returns, the handle it opened, if
    any, has been closed, and the set of open handles is as before.  (3) So
    a bootstrap started with the flag down ends with the flag down and [db]
    unchanged, (4) and it takes a call of [openDB] to open a handle and
    raise the flag. *)
Theorem createDB_leaves_store_closed :
  (forall w : World, same_vars w (snd (createDB w)))
  /\ (forall (w w' : World) (r : option error),
         handles_fresh w ->
         createDB w = (Returned r, w') ->
         handles w' = handles w
         /\ forall evs h e,
              added evs w w' -> In (EvOpen (Some h, e)) evs ->
              In (EvClose h) evs /\ h ∉ handles w')
  /\ (forall (w w' : World) (o : Outcome (option error)),
         isOpen w = false ->
         createDBIfDBPathEmpty w = (o, w') ->
         isOpen w' = false /\ db w' = db w)
  /\ (forall (w : World),
         isOpen w = false ->
         hd Normal (oracle w) = Normal ->
         exists w',
           openDB w = (Returned (Some (mkDB (Some (next_handle w))), None), w')
           /\ isOpen w' = true
           /\ next_handle w ∈ handles w').
Proof.
  split; [|split; [|split]].
  - exact createDB_same_vars.
  - intros [fs0 hs nh tx io gdb o tr lg] w' r Hfresh.
    assert (Hnh : nh ∉ hs) by (intros Hin; apply Hfresh in Hin; simpl in Hin; lia).
    assert (Hhs : ({[nh]} ∪ hs) ∖ {[nh]} = hs).
    { rewrite difference_union_distr_l_L, difference_diag_L, union_empty_l_L.
      apply difference_disjoint_L, disjoint_singleton_r, Hnh. }
    clear Hfresh. revert w' r.
    unfold createDB, log_Fatal. run_engine;
      intros w' r [= <- <-]; msimpl; rewrite ?Hhs;
      (split; [reflexivity|]);
      intros evs h' e' Hadd Hin; added_is Hadd; subst evs;
      cbn [In] in Hin; intuition (try discriminate);
      repeat match goal with H : EvOpen _ = EvOpen _ |- _ => injection H as <- <- end;
      cbn [In]; auto.
  - intros w w' oc Hopen Hrun.
    destruct (createDBIfDBPathEmpty_same_vars w) as [H1 H2].
    rewrite Hrun in H1, H2. simpl in H1, H2. split; congruence.
  - intros [fs0 hs nh tx io gdb o tr lg] Hopen H1. simpl in *. subst io.
    eexists. split.
    + unfold openDB. unfold_engine. msimpl. rewrite H1. msimpl. reflexivity.
    + msimpl. split; [reflexivity|].
      apply elem_of_union_l, elem_of_singleton. reflexivity.
Qed.

(** ** The miss path *)

(** Reads off a finished black-box run what its trace says. *)
Ltac trace_leaf Hadd :=
  added_is Hadd; try discriminate Hadd.

(** C3, as the code has it.  Take a call of [GetEnrollmentCert] that went
    down the miss path: lookup, fetch, begin, insert and commit, all
    without error, then the second lookup, which the engine answered with
    [q2].  If that re-read failed with an error other than "no rows", the
    call returns this error and a nil certificate.  If it found no row,
    the call returns a nil certificate and a nil error, and so it does
    when the row holds a NULL certificate: the code has no check that
    turns an absent certificate into an error. *)
Theorem GetEnrollmentCert_reread
    (d : option DB) (id : GoBytes) (certFetcher : GoBytes -> GoBytes * option error)
    (w w' : World) (o : Outcome (GoBytes * option error))
    (h : Handle) (c : GoBytes) (q1 q2 : GoBytes * option error) :
  GetEnrollmentCert d id certFetcher w = (o, w') ->
  added [EvQueryRow h (EncodeBase64 id) q2;
         EvCommit None;
         EvExec (Insert (EncodeBase64 id) c) None;
         EvBegin h None;
         EvFetch id (c, None);
         EvQueryRow h (EncodeBase64 id) q1] w w' ->
  (forall e, snd q2 = Some e -> e <> ErrNoRows -> o = Returned (None, Some e))
  /\ (snd q2 = Some ErrNoRows -> o = Returned (None, None))
  /\ (forall cert, q2 = (cert, None) -> o = Returned (cert, None)).
Proof.
  destruct w as [fs0 hs nh tx io gdb orc tr lg].
  revert w' o. unfold GetEnrollmentCert, selectEnrollmentCert, call.
  destruct d as [[[h'|]]|]; run_engine;
    intros ? ? [= <- <-] Hadd; trace_leaf Hadd;
    simplify_eq; cbn [snd];
    (split; [|split]); intros; simplify_eq; try reflexivity; try contradiction.
Qed.


(** ** Without other clients *)

(** What each engine call does when the directive it meets is not another
    client's: it goes through or it fails. *)

Ltac not_env :=
  match goal with
  | H : no_env (Env _) |- _ => destruct H
  | E : hd Normal ?o = Env _, H : no_env (hd Normal ?o) |- _ =>
      rewrite E in H; destruct H
  end.

(** Uses what earlier splits have settled. *)
Ltac settled :=
  repeat match goal with
         | E : ?x = _ |- context [match ?x with _ => _ end] => rewrite E
         end.

Ltac quiet_cases :=
  repeat first
    [ progress (msimpl; rewrite ?lookup_insert_eq; settled)
    | match goal with
      | |- context [match ?x with _ => _ end] =>
          lazymatch x with
          | context [match _ with _ => _ end] => fail
          | _ => destruct x eqn:?
          end
      end;
      try not_env ].

Lemma DB_QueryRow_Scan_quiet h id w :
  no_env (hd Normal (oracle w)) ->
  exists r fs',
    DB_QueryRow_Scan (Some h) id w
    = (Returned r,
       mkWorld fs' (handles w) (next_handle w) (txn w) (isOpen w) (db w)
         (tl (oracle w)) (EvQueryRow h id r :: trace w) (logs w))
    /\ (forall k, stored_in fs' k = stored_in (fs w) k)
    /\ (snd r = None -> fs' = fs w /\ stored_in (fs w) id = Some (fst r))
    /\ (snd r = Some ErrNoRows ->
        fs' = fs w /\ stored_in (fs w) id = None /\ exists t, table_of (fs w) = inl t).
Proof.
  destruct w as [fs0 hs nh tx io gdb o tr lg]. cbn [oracle]. intros Hq.
  unfold_engine. quiet_cases; do 2 eexists; (split; [reflexivity|]);
    cbn [fst snd]; unfold stored_in, table_of;
    repeat split; intros; simplify_eq; rewrite ?lookup_insert_eq; settled; eauto.
Qed.

Lemma DB_Begin_quiet h w :
  no_env (hd Normal (oracle w)) ->
  exists r fs' txn',
    DB_Begin (Some h) w
    = (Returned r,
       mkWorld fs' (handles w) (next_handle w) txn' (isOpen w) (db w)
         (tl (oracle w)) (EvBegin h (snd r) :: trace w) (logs w))
    /\ (forall k, stored_in fs' k = stored_in (fs w) k)
    /\ ((r = (Some h, None) /\ txn' = Some []) \/ exists e, r = (None, Some e)).
Proof.
  destruct w as [fs0 hs nh tx io gdb o tr lg]. cbn [oracle]. intros Hq.
  unfold_engine. quiet_cases; eexists (_, _); do 2 eexists; (split; [reflexivity|]);
    cbn [fst snd]; unfold stored_in, table_of;
    repeat split; intros; simplify_eq; rewrite ?lookup_insert_eq; settled; eauto.
Qed.

Lemma Tx_Exec_Insert_quiet h id cert w rows :
  txn w = Some rows ->
  no_env (hd Normal (oracle w)) ->
  exists err,
    Tx_Exec_Insert (Some h) id cert w
    = (Returned err,
       mkWorld (fs w) (handles w) (next_handle w)
         (match err with
          | None => Some (rows ++ [(id, cert)])%list
          | Some _ => Some rows
          end)
         (isOpen w) (db w)
         (tl (oracle w)) (EvExec (Insert id cert) err :: trace w) (logs w))
    /\ (err = None ->
        stored_in (fs w) id = None /\ exists t, table_of (fs w) = inl t).
Proof.
  destruct w as [fs0 hs nh tx io gdb o tr lg]. cbn [oracle txn]. intros -> Hq.
  unfold_engine. quiet_cases;
    lazymatch goal with
    | |- exists err, (Returned ?x, _) = _ /\ _ => exists x
    end;
    (split; [reflexivity|]);
    unfold stored_in, table_of;
    intros; simplify_eq; settled; eauto.
Qed.

Lemma Tx_Commit_quiet h w rows :
  txn w = Some rows ->
  no_env (hd Normal (oracle w)) ->
  exists err fs',
    Tx_Commit (Some h) w
    = (Returned err,
       mkWorld fs' (handles w) (next_handle w) None (isOpen w) (db w)
         (tl (oracle w)) (EvCommit err :: trace w) (logs w))
    /\ match err with
       | None =>
           exists t t',
             table_of (fs w) = inl t /\ apply_rows rows t = Some t'
             /\ fs' = write_table t' (fs w)
       | Some _ => fs' = fs w
       end.
Proof.
  destruct w as [fs0 hs nh tx io gdb o tr lg]. cbn [oracle txn]. intros -> Hq.
  unfold_engine. quiet_cases;
    lazymatch goal with
    | |- exists err fs', (Returned ?x, _) = _ /\ _ => exists x
    end;
    eexists; (split; [reflexivity|]);
    unfold table_of; settled; eauto.
Qed.



Lemma apply_rows_one k v t t' :
  apply_rows [(k, v)] t = Some t' -> t !! k = None /\ t' = <[k := v]> t.
Proof.
  cbn [apply_rows]. destruct (t !! k); [discriminate|]. by intros [= <-].
Qed.


Ltac wsimpl_in H :=
  cbv beta iota delta
    [fs handles next_handle txn isOpen db oracle trace logs fst snd] in H.

(** Makes the facts a run has gathered ready for use. *)
Ltac facts :=
  repeat match goal with
         | H : ?a = ?a -> _ |- _ => specialize (H eq_refl)
         | H : ?p -> _ |- _ =>
             lazymatch p with
             | _ = _ => assert (~ p) by discriminate; clear H
             end
         | H : _ /\ _ |- _ => destruct H
         | H : exists _, _ |- _ => destruct H
         | H : apply_rows [_] _ = Some _ |- _ => apply apply_rows_one in H
         | H : forall k, stored_in ?d k = stored_in ?d k |- _ => clear H
         | H : ?a <> ?b |- _ =>
             lazymatch a with Some _ => lazymatch b with None => clear H end end
         end;
  subst.


(** Follows the rows through the worlds of a run. *)
Ltac rows :=
  repeat match goal with
         | H : forall k, stored_in ?a k = _ |- context [stored_in ?a _] => rewrite H
         | H : forall k, stored_in ?a k = _, H' : context [stored_in ?a _] |- _ =>
             rewrite H in H'
         end.


(** The five directives a call of [GetEnrollmentCert] can meet. *)
Ltac quiet_setup Hq :=
  let Hq1 := fresh "Hq1" in
  let Hq2 := fresh "Hq2" in
  let Hq3 := fresh "Hq3" in
  let Hq4 := fresh "Hq4" in
  let Hq5 := fresh "Hq5" in
  let Ht1 := fresh "Ht1" in
  let Ht2 := fresh "Ht2" in
  let Ht3 := fresh "Ht3" in
  let Ht4 := fresh "Ht4" in
  let Ht5 := fresh "Ht5" in
  pose proof (quiet_tl _ Hq) as Ht1;
  pose proof (quiet_tl _ Ht1) as Ht2;
  pose proof (quiet_tl _ Ht2) as Ht3;
  pose proof (quiet_tl _ Ht3) as Ht4;
  pose proof (quiet_tl _ Ht4) as Ht5;
  pose proof (quiet_hd _ Hq) as Hq1;
  pose proof (quiet_hd _ Ht1) as Hq2;
  pose proof (quiet_hd _ Ht2) as Hq3;
  pose proof (quiet_hd _ Ht3) as Hq4;
  pose proof (quiet_hd _ Ht4) as Hq5.

(** One step of a run that no other client disturbs. *)
Ltac quiet_step :=
  match goal with
  | |- context [DB_QueryRow_Scan (Some ?h) ?id ?W] =>
      let E := fresh "E" in
      let Hk := fresh "Hk" in
      let Hok := fresh "Hok" in
      let Hno := fresh "Hno" in
      destruct (DB_QueryRow_Scan_quiet h id W) as (? & ? & E & Hk & Hok & Hno);
      [ assumption
      | msimpl_in E; wsimpl_in Hk; wsimpl_in Hok; wsimpl_in Hno; rewrite E; clear E ]
  | |- context [DB_Begin (Some ?h) ?W] =>
      let E := fresh "E" in
      let Hk := fresh "Hk" in
      destruct (DB_Begin_quiet h W) as (? & ? & ? & E & Hk & [[-> ->]|[? ->]]);
      [ assumption | | ];
      msimpl_in E; wsimpl_in Hk; rewrite E; clear E
  | |- context [Tx_Exec_Insert (Some ?h) ?id ?c ?W] =>
      let E := fresh "E" in
      let Hok := fresh "Hok" in
      destruct (Tx_Exec_Insert_quiet h id c W _ eq_refl) as (? & E & Hok);
      [ assumption
      | msimpl_in E; wsimpl_in Hok; rewrite E; clear E ]
  | |- context [Tx_Commit (Some ?h) ?W] =>
      let E := fresh "E" in
      let Hok := fresh "Hok" in
      destruct (Tx_Commit_quiet h W _ eq_refl) as (? & ? & E & Hok);
      [ assumption
      | msimpl_in E; wsimpl_in Hok; rewrite E; clear E ]
  | |- context [Tx_Rollback (Some ?h) ?W] =>
      let E := fresh "E" in
      destruct (Tx_Rollback_run h W) as (? & E & _);
      msimpl_in E; rewrite E; clear E
  | |- context [DB_QueryRow_Scan None ?id ?W] =>
      change (DB_QueryRow_Scan None id W) with (@Panicked (GoBytes * option error), W)
  | |- context [DB_Begin None ?W] =>
      change (DB_Begin None W) with (@Panicked (option Tx * option error), W)
  | |- context [Tx_Exec_Insert None ?id ?c ?W] =>
      change (Tx_Exec_Insert None id c W) with (@Panicked (option error), W)
  end.

Ltac run_quiet := repeat (msimpl; first [quiet_step | result_case]).


(** *** Rows are kept *)





























(** ** Stability of the records *)


(** C4. Take any call of [GetEnrollmentCert] in which the insert failed
    with an error [e], whatever the cause, a violation of the primary key
    included.  The call returns [e] with a nil certificate; the insert is
    followed by the rollback, which is the last call into the engine, and
    no commit was attempted; no transaction is left open. *)
Theorem GetEnrollmentCert_insert_fails
    (d : option DB) (id : GoBytes) (certFetcher : GoBytes -> GoBytes * option error)
    (w w' : World) (o : Outcome (GoBytes * option error))
    (evs : list Event) (c : GoBytes) (e : error) :
  GetEnrollmentCert d id certFetcher w = (o, w') ->
  added evs w w' ->
  In (EvExec (Insert (EncodeBase64 id) c) (Some e)) evs ->
  o = Returned (None, Some e)
  /\ txn w' = None
  /\ (exists rb h q,
        evs = [EvRollback rb;
               EvExec (Insert (EncodeBase64 id) c) (Some e);
               EvBegin h None;
               EvFetch id (c, None);
               EvQueryRow h (EncodeBase64 id) q])
  /\ (quiet (oracle w) -> forall k, stored w' k = stored w k).
Proof.
  intros Hrun Hadd Hin.
  assert (Hgen : o = Returned (None, Some e) /\ txn w' = None
                 /\ exists rb h q,
                      evs = [EvRollback rb;
                             EvExec (Insert (EncodeBase64 id) c) (Some e);
                             EvBegin h None;
                             EvFetch id (c, None);
                             EvQueryRow h (EncodeBase64 id) q]).
  { revert Hrun Hadd Hin.
    destruct w as [fs0 hs nh tx io gdb orc tr lg].
    revert w' o. unfold GetEnrollmentCert, selectEnrollmentCert, call.
    destruct d as [[[h'|]]|]; run_engine;
      intros ? ? [= <- <-] Hadd Hin; added_is Hadd; subst evs;
      cbn [In] in Hin; intuition (try discriminate);
      simplify_eq; msimpl; eauto 10. }
  destruct Hgen as (Ho & Htxn & Hevs). repeat split; try assumption.
  intros Hq. revert Hrun Hadd Hin. clear Ho Htxn Hevs. quiet_setup Hq.
  destruct w as [fs0 hs nh tx io gdb orc tr lg]. cbn [oracle] in *.
  revert w' o. unfold GetEnrollmentCert, selectEnrollmentCert, call.
  destruct d as [[[h'|]]|]; run_quiet;
    intros ? ? [= <- <-] Hadd Hin; added_is Hadd; subst evs;
    cbn [In] in Hin; intuition (try discriminate);
    unfold stored; msimpl; facts; intros; rows; reflexivity.
Qed.

End Validator.

(** * The scenario, run *)

Import Scenario.

Abbreviation enc := Base64.EncodeBase64 (only parsing).

(** The key of the specification's example. *)
Example key_of_id12 : enc id12 = key12.
Proof. reflexivity. Qed.

(** [initDB] on an empty path bootstraps and opens the store. *)
Example initDB_on_empty_path :
  exists w,
    initDB "db" (empty_path []) = (Returned None, w)
    /\ fs w = fs (opened ∅ []) /\ handles w = handles (opened ∅ [])
    /\ next_handle w = 2 /\ isOpen w = true /\ db w = the_db /\ txn w = None.
Proof. eexists. split; [vm_compute; reflexivity|]. vm_compute. repeat split. Qed.

Lemma one_is_open t o : 1 ∈ handles (opened t o).
Proof. vm_compute. reflexivity. Defined.


(** C2 as stated fails on a row with a NULL certificate.  Such a row is
    what the package itself writes when a fetcher returns a nil certificate
    and a nil error (first line); with that row in the table, a call for the
    same identity calls its fetcher again, although a record exists, and
    returns the fetcher's error. *)
Lemma GetEnrollmentCert_hit_counterexample :
  fs (snd (GetEnrollmentCert enc the_db id12 fetchNil (opened ∅ [])))
  = fs (opened {[ key12 := None ]} [])
  /\ stored (opened {[ key12 := None ]} []) (enc id12) = Some None
  /\ fst (GetEnrollmentCert enc the_db id12 fetchFails (opened {[ key12 := None ]} []))
     = Returned (None, Some (ErrNew "ECA unreachable"))
  /\ fetch_calls (snd (GetEnrollmentCert enc the_db id12 fetchFails
                         (opened {[ key12 := None ]} []))) = 1.
Proof. vm_compute. repeat split. Qed.

(** The amended C2 at the example of the specification: the certificate is
    cached, the fetcher fails, and is not called. *)
Lemma GetEnrollmentCert_hit_witness :
  exists w',
    GetEnrollmentCert enc the_db id12 fetchFails (opened {[ key12 := certAB ]} [])
    = (Returned (certAB, None), w')
    /\ added [EvQueryRow 1 (enc id12) (certAB, None)] (opened {[ key12 := certAB ]} []) w'
    /\ fetch_calls w' = fetch_calls (opened {[ key12 := certAB ]} [])
    /\ fs w' = fs (opened {[ key12 := certAB ]} [])
    /\ txn w' = txn (opened {[ key12 := certAB ]} []).
Proof.
  apply (GetEnrollmentCert_hit enc 1 id12 fetchFails [Byte.xaa; Byte.xbb]
           (opened {[ key12 := certAB ]} [])).
  - apply one_is_open.
  - reflexivity.
  - reflexivity.
Defined.

(** C3 as stated fails.  (1) The literal case: insert and commit succeed,
    another client resets the store before the re-read, the re-read finds
    no row, and the call returns a nil certificate with a nil error.
    (2) Without any other client: the fetcher returns a nil certificate,
    it is stored as NULL, the re-read finds the row and scans nil, and the
    call again returns a nil certificate with a nil error. *)
Lemma GetEnrollmentCert_reread_counterexample :
  (GetEnrollmentCert enc the_db id12 fetchAB
     (opened ∅ [Normal; Normal; Normal; Normal; reset_by_other_client])
   = (Returned (None, None),
      snd (GetEnrollmentCert enc the_db id12 fetchAB
             (opened ∅ [Normal; Normal; Normal; Normal; reset_by_other_client])))
   /\ trace (snd (GetEnrollmentCert enc the_db id12 fetchAB
                    (opened ∅ [Normal; Normal; Normal; Normal; reset_by_other_client])))
      = [EvQueryRow 1 key12 (None, Some ErrNoRows);
         EvCommit None;
         EvExec (Insert key12 certAB) None;
         EvBegin 1 None;
         EvFetch id12 (certAB, None);
         EvQueryRow 1 key12 (None, Some ErrNoRows)])
  /\ (GetEnrollmentCert enc the_db id12 fetchNil (opened ∅ [])
      = (Returned (None, None),
         snd (GetEnrollmentCert enc the_db id12 fetchNil (opened ∅ [])))
      /\ trace (snd (GetEnrollmentCert enc the_db id12 fetchNil (opened ∅ [])))
         = [EvQueryRow 1 key12 (None, None);
            EvCommit None;
            EvExec (Insert key12 None) None;
            EvBegin 1 None;
            EvFetch id12 (None, None);
            EvQueryRow 1 key12 (None, Some ErrNoRows)]).
Proof. vm_compute. repeat split. Qed.

(** The amended C3 at the counterexample: the re-read found no row, the
    call returns a nil certificate and a nil error. *)
Lemma GetEnrollmentCert_reread_witness :
  let w := opened ∅ [Normal; Normal; Normal; Normal; reset_by_other_client] in
  let run := GetEnrollmentCert enc the_db id12 fetchAB w in
  added [EvQueryRow 1 (enc id12) (None, Some ErrNoRows);
         EvCommit None;
         EvExec (Insert (enc id12) certAB) None;
         EvBegin 1 None;
         EvFetch id12 (certAB, None);
         EvQueryRow 1 (enc id12) (None, Some ErrNoRows)] w (snd run)
  /\ fst run = Returned (None, None).
Proof.
  intros w run.
  assert (Hadd : added [EvQueryRow 1 (enc id12) (None, Some ErrNoRows);
                        EvCommit None;
                        EvExec (Insert (enc id12) certAB) None;
                        EvBegin 1 None;
                        EvFetch id12 (certAB, None);
                        EvQueryRow 1 (enc id12) (None, Some ErrNoRows)] w (snd run))
    by (vm_compute; reflexivity).
  split; [exact Hadd|].
  exact (proj1 (proj2 (GetEnrollmentCert_reread enc the_db id12 fetchAB w (snd run) (fst run)
                         1 certAB (None, Some ErrNoRows) (None, Some ErrNoRows)
                         (surjective_pairing run) Hadd))
           eq_refl).
Defined.

(** C4 on a violation of the primary key: the key is already there, with a
    NULL certificate, so the lookup scans nil, the fetcher is called and the
    insert fails. *)
Lemma GetEnrollmentCert_insert_fails_witness :
  let w := opened {[ key12 := None ]} [] in
  let run := GetEnrollmentCert enc the_db id12 fetchAB w in
  let evs := [EvRollback None;
              EvExec (Insert (enc id12) certAB) (Some unique_violation);
              EvBegin 1 None;
              EvFetch id12 (certAB, None);
              EvQueryRow 1 (enc id12) (None, None)] in
  added evs w (snd run)
  /\ fst run = Returned (None, Some unique_violation)
  /\ txn (snd run) = None
  /\ forall k, stored (snd run) k = stored w k.
Proof.
  intros w run evs.
  assert (Hadd : added evs w (snd run)) by (vm_compute; reflexivity).
  assert (Hin : In (EvExec (Insert (enc id12) certAB) (Some unique_violation)) evs)
    by (right; left; reflexivity).
  destruct (GetEnrollmentCert_insert_fails enc the_db id12 fetchAB w (snd run) (fst run)
              evs certAB unique_violation (surjective_pairing run) Hadd Hin)
    as (Hres & Htxn & _ & Hrows).
  split; [exact Hadd|]. split; [exact Hres|]. split; [exact Htxn|].
  apply Hrows. constructor.
Defined.

(** C5: a second bootstrap of the opened store, and two bootstraps of an
    empty path. *)
Lemma createDBIfDBPathEmpty_idempotent_witness :
  createDBIfDBPathEmpty "db" (opened ∅ [])
  = (Returned None,
     set_logs ((Debug, "Db file [%s] missing [%t]")
               :: (Debug, "Db path [%s] missing [%t]") :: logs (opened ∅ []))
       (opened ∅ []))
  /\ exists w1 w2,
       createDBIfDBPathEmpty "db" (empty_path []) = (Returned None, w1)
       /\ createDBIfDBPathEmpty "db" w1 = (Returned None, w2)
       /\ w2 = set_logs (logs w2) w1
       /\ table_of (fs w2) = inl ∅
       /\ schema_creations w2 = S (schema_creations (empty_path []))
       /\ handles w2 = handles (empty_path []) ∖ {[next_handle (empty_path [])]}
       /\ isOpen w2 = isOpen (empty_path []).
Proof.
  split.
  - apply (proj1 (createDBIfDBPathEmpty_idempotent "db") (opened ∅ [])
             {[ getDBName := DbFile (Some ∅) ]} (DbFile (Some ∅))).
    + reflexivity.
    + reflexivity.
  - apply (proj2 (createDBIfDBPathEmpty_idempotent "db") (empty_path [])).
    + left. reflexivity.
    + simpl. repeat split.
Defined.

(** C6: [initDB] on the opened store. *)
Lemma initDB_already_initialized_witness :
  initDB "db" (opened ∅ [])
  = (Returned (Some (ErrNew "DB already initialized.")), opened ∅ []).
Proof.
  apply (initDB_already_initialized "db" (opened ∅ [])). reflexivity.
Defined.

(** C7: the store file is missing but a file with the name that [createDB]
    checks is there; [createDB] refuses, the bootstrap reports success. *)
Lemma createDBIfDBPathEmpty_swallows_failure_witness :
  createDBIfDBPathEmpty "db" stray_file
  = (Returned None,
     set_logs ((Debug, "Failed creating db At [%s]: %s")
               :: logs (snd (createDB "db" (snd (bootstrap_checks stray_file)))))
       (snd (createDB "db" (snd (bootstrap_checks stray_file))))).
Proof.
  apply (createDBIfDBPathEmpty_swallows_failure "db" stray_file
           (snd (bootstrap_checks stray_file))
           (snd (createDB "db" (snd (bootstrap_checks stray_file))))
           (ErrNew "db dir [%s] already exists")).
  - vm_compute. reflexivity.
  - vm_compute. reflexivity.
Defined.


(** C10 on an empty path: [createDB] returns with no handle open and the
    flag down; so does the bootstrap; [openDB] then opens handle 1. *)
Lemma createDB_leaves_store_closed_witness :
  let w := empty_path [] in
  let created := createDB "db" w in
  let booted := createDBIfDBPathEmpty "db" w in
  (handles (snd created) = handles w /\ isOpen (snd created) = isOpen w
   /\ db (snd created) = db w)
  /\ (isOpen (snd booted) = false /\ db (snd booted) = db w)
  /\ exists w',
       openDB (snd booted)
       = (Returned (Some (mkDB (Some (next_handle (snd booted)))), None), w')
       /\ isOpen w' = true /\ next_handle (snd booted) ∈ handles w'.
Proof.
  intros w created booted.
  destruct (createDB_leaves_store_closed "db") as (Hvars & Hcreate & Hboot & Hopen).
  assert (Hfresh : handles_fresh w).
  { intros h Hh. vm_compute in Hh. discriminate Hh. }
  assert (Hcreated : created = (Returned None, snd created)) by (vm_compute; reflexivity).
  split; [|split].
  - destruct (Hcreate w (snd created) None Hfresh Hcreated) as (H1 & _).
    destruct (Hvars w) as (H2 & H3).
    split; [exact H1|]. split; [exact H2 | exact H3].
  - apply (Hboot w (snd booted) (fst booted)); [reflexivity | apply surjective_pairing].
  - apply (Hopen (snd booted)); vm_compute; reflexivity.
Defined.
